(** * geospatial: distances, nodes and the in-memory repository

    A shallow embedding of [geospatial/geospatial.py]: the unit model
    ([Unit], [Radius], [EarthsRadius]), the great-circle distance
    ([haversine]), the [Node] entity and [InMemoryGeospatialRepository];
    of the MongoDB backend, the part that is its own: [MongoNode] and the
    document that [MongoGeospatialRepository.upsert] writes.

    Conventions of the embedding.
    - Python numbers used as lengths, angles and coordinates are real
      numbers ([R]).  The code computes in binary64, so the statements
      below use no identity that rounding breaks; where the outcome of
      [haversine] depends on rounding (the domain error of [math.sqrt])
      they are stated by cases on that outcome.
    - [Binary64] repeats the lines of [haversine] on binary64 numbers,
      with the functions of the C library as parameters, and evaluates
      that domain error at two points of the globe.
    - Dynamically typed arguments (identifiers, carried values, the [unit]
      argument) range over [pyobj]: [None], integers, strings and members
      of [Unit].  On these objects Python's [==] and hashing coincide with
      structural equality.
    - A raised exception is the [Raise] case of [result]; [math.sqrt]
      raises [ValueError] on a negative argument, as in CPython.
    - The dict [self.nodes] is a finite map; the order in which [items()]
      enumerates it is the map's own, and no statement depends on it. *)

From Stdlib Require PrimFloat.
From Stdlib Require Import Reals Lra Machin.
From stdpp Require Import base option list strings countable gmap fin_maps pretty.

Local Open Scope R_scope.

(** ** Python objects, truthiness and exceptions *)

(** [class Unit(enum.Enum)] *)
Inductive Unit : Set := KILOMETERS | METERS | MILES.

Inductive pyobj : Set :=
  | PyNone
  | PyInt (z : Z)
  | PyStr (s : string)
  | PyUnit (u : Unit).

#[global] Instance Unit_eq_dec : EqDecision Unit.
Proof. solve_decision. Defined.

#[global] Instance pyobj_eq_dec : EqDecision pyobj.
Proof. solve_decision. Defined.

Definition Unit_tag (u : Unit) : nat :=
  match u with KILOMETERS => 0 | METERS => 1 | MILES => 2 end.

Definition Unit_of_tag (n : nat) : Unit :=
  match n with 0%nat => KILOMETERS | 1%nat => METERS | _ => MILES end.

#[global] Instance Unit_countable : Countable Unit.
Proof. by apply (inj_countable' Unit_tag Unit_of_tag); intros []. Defined.

Definition pyobj_enc (o : pyobj) : unit + Z + string + Unit :=
  match o with
  | PyNone => inl (inl (inl tt))
  | PyInt z => inl (inl (inr z))
  | PyStr s => inl (inr s)
  | PyUnit u => inr u
  end.

Definition pyobj_dec (x : unit + Z + string + Unit) : pyobj :=
  match x with
  | inl (inl (inl _)) => PyNone
  | inl (inl (inr z)) => PyInt z
  | inl (inr s) => PyStr s
  | inr u => PyUnit u
  end.

#[global] Instance pyobj_countable : Countable pyobj.
Proof. by apply (inj_countable' pyobj_enc pyobj_dec); intros []. Defined.

(** [bool(o)]: [None], [0] and the empty string are falsy; members of an
    [Enum] are truthy. *)
Definition truthy (o : pyobj) : bool :=
  match o with
  | PyNone => false
  | PyInt z => negb (Z.eqb z 0)
  | PyStr s => negb (String.eqb s "")
  | PyUnit _ => true
  end.

(** [a == b] on objects *)
Definition py_eq (a b : pyobj) : bool := bool_decide (a = b).

Inductive exn : Set := ValueError | KeyError.

Inductive result (A : Type) : Type :=
  | Ok (a : A)
  | Raise (e : exn).

Arguments Ok {A} a.
Arguments Raise {A} e.

Definition bind {A B : Type} (m : result A) (k : A -> result B) : result B :=
  match m with
  | Ok a => k a
  | Raise e => Raise e
  end.

Notation "'do' x <- m ; k" := (bind m (fun x => k))
  (at level 10, x name, m at level 100, k at level 200).

(** ** Radius and EarthsRadius *)

Module Radius.

Record t : Type := mk { meters : R }.

Definition to_meters (self : t) : R := meters self.

Definition to_kilometers (self : t) : R := meters self / 1000.

Definition to_miles (self : t) : R := meters self / 1609.344.

Definition convert_to (self : t) (unit : pyobj) : result R :=
  if py_eq unit (PyUnit KILOMETERS) then Ok (to_kilometers self)
  else if py_eq unit (PyUnit MILES) then Ok (to_miles self)
  else if py_eq unit (PyUnit METERS) then Ok (to_meters self)
  else Raise ValueError.

(** The right operand of [__eq__]: a radius or some other object. *)
Inductive operand : Type :=
  | IsRadius (r : t)
  | NotRadius (o : pyobj).

(** [isinstance(other, Radius) and self.meters == other.meters] *)
Definition __eq__ (self : t) (other : operand) : bool :=
  match other with
  | IsRadius r => if Req_dec_T (meters self) (meters r) then true else false
  | NotRadius _ => false
  end.

End Radius.

Module EarthsRadius.

Definition RADIUS : Radius.t := Radius.mk 6371000.

Definition convert_to (unit : pyobj) : result R :=
  Radius.convert_to RADIUS unit.

End EarthsRadius.

(** ** The math module *)

(** [math.radians(x)] *)
Definition math_radians (x : R) : R := x * (PI / 180).

(** [math.sqrt(x)]: a domain error below zero *)
Definition math_sqrt (x : R) : result R :=
  if Rlt_dec x 0 then Raise ValueError else Ok (sqrt x).

(** [math.atan2(y, x)]: the angle of the point [(x, y)], in (-pi, pi] *)
Definition math_atan2 (y x : R) : R :=
  if Rlt_dec 0 x then atan (y / x)
  else if Rlt_dec x 0 then
    if Rlt_dec y 0 then atan (y / x) - PI else atan (y / x) + PI
  else if Rlt_dec 0 y then PI / 2
  else if Rlt_dec y 0 then - (PI / 2)
  else 0.

(** [x <= y] on numbers, as a truth value *)
Definition float_le (x y : R) : bool :=
  if Rle_dec x y then true else false.

(** ** haversine *)

(** The four angles are the images of [lat1], [lat2], [lat2 - lat1] and
    [lon2 - lon1] under [math.radians]; [pow(x, 2)] is [x ^ 2]. *)
Definition haversine (coordinates other : R * R) (unit : pyobj) : result R :=
  let '(lat1, lon1) := coordinates in
  let '(lat2, lon2) := other in
  let phi_a := math_radians lat1 in
  let phi_b := math_radians lat2 in
  let delta_latitudes := math_radians (lat2 - lat1) in
  let delta_longitudes := math_radians (lon2 - lon1) in
  let a := (sin (delta_latitudes / 2)) ^ 2
           + cos phi_a * cos phi_b * (sin (delta_longitudes / 2)) ^ 2 in
  do sa <- math_sqrt a;
  do sb <- math_sqrt (1 - a);
  let c := 2 * math_atan2 sa sb in
  do r <- EarthsRadius.convert_to unit;
  Ok (r * c).

(** The value [a] of [haversine], named for the statements below. *)
Definition haversine_a (coordinates other : R * R) : R :=
  let '(lat1, lon1) := coordinates in
  let '(lat2, lon2) := other in
  (sin (math_radians (lat2 - lat1) / 2)) ^ 2
  + cos (math_radians lat1) * cos (math_radians lat2)
    * (sin (math_radians (lon2 - lon1) / 2)) ^ 2.

(** The Earth's radius in each unit. *)
Definition earth_radius_in (u : Unit) : R :=
  match u with
  | METERS => 6371000
  | KILOMETERS => 6371000 / 1000
  | MILES => 6371000 / 1609.344
  end.

(** ** Node *)

Module Node.

Record t : Type := mk {
  node_id : pyobj;
  coordinates : R * R;
  value : pyobj
}.

(** The right operand of [__eq__]: a node or some other object. *)
Inductive operand : Type :=
  | IsNode (n : t)
  | NotNode (o : pyobj).

(** [isinstance(other, Node) and self.value == other.value] *)
Definition __eq__ (self : t) (other : operand) : bool :=
  match other with
  | IsNode n => py_eq (value self) (value n)
  | NotNode _ => false
  end.

End Node.

(** ** InMemoryGeospatialRepository *)

(** [dict.pop(key)] without a default *)
Definition dict_pop (d : gmap pyobj Node.t) (key : pyobj)
  : result (Node.t * gmap pyobj Node.t) :=
  match d !! key with
  | Some v => Ok (v, delete key d)
  | None => Raise KeyError
  end.

Module InMemoryGeospatialRepository.

Record t : Type := mk { nodes : gmap pyobj Node.t }.

Definition __init__ : t := mk ∅.

(** The comprehension of [search], over the items of the dict. *)
Fixpoint scan (items : list (pyobj * Node.t)) (coordinates : R * R)
  (radius : Radius.t) : result (list Node.t) :=
  match items with
  | [] => Ok []
  | (_, node) :: rest =>
      do d <- haversine coordinates (Node.coordinates node) (PyUnit METERS);
      do tl <- scan rest coordinates radius;
      Ok (if float_le d (Radius.to_meters radius) then node :: tl else tl)
  end.

Definition search (self : t) (coordinates : R * R) (radius : Radius.t)
  : result (list Node.t) :=
  scan (map_to_list (nodes self)) coordinates radius.

Definition __len__ (self : t) : Z := Z.of_nat (size (nodes self)).

Definition upsert (self : t) (node : Node.t) : Node.t * t :=
  let node_id := if truthy (Node.node_id node) then Node.node_id node
                 else PyInt (__len__ self + 1) in
  let n := Node.mk node_id (Node.coordinates node) (Node.value node) in
  (n, mk (<[Node.node_id n := n]> (nodes self))).

(** [None] is the absent result. *)
Definition get (self : t) (node_id : pyobj) : option Node.t :=
  nodes self !! node_id.

(** [bool(self.get(node_id))]: a [Node] defines neither [__bool__] nor
    [__len__], so every node is truthy. *)
Definition contains (self : t) (node_id : pyobj) : bool :=
  match get self node_id with
  | Some _ => true
  | None => false
  end.

(** Only [KeyError] is caught; the popped node is truthy. *)
Definition delete (self : t) (node_id : pyobj) : result (bool * t) :=
  match dict_pop (nodes self) node_id with
  | Ok (_, d) => Ok (true, mk d)
  | Raise KeyError => Ok (false, self)
  | Raise e => Raise e
  end.

End InMemoryGeospatialRepository.

Module Repo := InMemoryGeospatialRepository.

(** ** Scenarios *)

Definition origin : R * R := (0, 0).

Definition me : Node.t := Node.mk PyNone origin (PyStr "me").
Definition you : Node.t := Node.mk PyNone origin (PyStr "you").
Definition him : Node.t := Node.mk PyNone origin (PyStr "him").

(** A node that carries the integer 0 as its identifier. *)
Definition zero_id : Node.t := Node.mk (PyInt 0) origin (PyStr "me").

(** [upsert(me)] on a new repository, then [upsert(you)], then
    [delete(1)]. *)
Definition one_node : Repo.t := snd (Repo.upsert Repo.__init__ me).
Definition two_nodes : Repo.t := snd (Repo.upsert one_node you).
Definition after_delete : Repo.t :=
  Repo.mk (delete (PyInt 1) (Repo.nodes two_nodes)).

(** ** Sequences of calls *)

(** [for node in nodes: repository.upsert(node)] *)
Definition upsert_all (self : Repo.t) (nodes : list Node.t) : Repo.t :=
  fold_left (fun s node => snd (Repo.upsert s node)) nodes self.

(** The states a repository passes through: a new one, then any sequence
    of [upsert] and [delete] calls. *)
Inductive reachable : Repo.t -> Prop :=
  | reachable_init : reachable Repo.__init__
  | reachable_upsert (s : Repo.t) (node : Node.t) :
      reachable s -> reachable (snd (Repo.upsert s node))
  | reachable_delete (s s' : Repo.t) (node_id : pyobj) (b : bool) :
      reachable s -> Repo.delete s node_id = Ok (b, s') -> reachable s'.

(** The stored identifiers are the integers from 1 to the length. *)
Definition dense (s : Repo.t) : Prop :=
  forall k : pyobj,
    is_Some (Repo.nodes s !! k)
    <-> exists z : Z, k = PyInt z /\ (1 <= z <= Repo.__len__ s)%Z.

(** ** MongoNode and the document written by MongoGeospatialRepository *)

(** [str(o)] *)
Definition py_str (o : pyobj) : string :=
  match o with
  | PyNone => "None"
  | PyInt z => pretty z
  | PyStr s => s
  | PyUnit KILOMETERS => "Unit.KILOMETERS"
  | PyUnit METERS => "Unit.METERS"
  | PyUnit MILES => "Unit.MILES"
  end.

(** The document of [replace_one]; its [location] is the sub-document
    with the keys [type] and [coordinates]. *)
Record document : Type := mkDocument {
  _id : pyobj;
  doc_value : pyobj;
  location_type : string;
  location_coordinates : list R
}.

(** The document [MongoGeospatialRepository.upsert] writes for [node]
    under the identifier [node_id]: longitude first, then latitude. *)
Definition upsert_document (node_id : pyobj) (node : Node.t) : document :=
  mkDocument node_id (Node.value node) "Point"
    [snd (Node.coordinates node); fst (Node.coordinates node)].

Module MongoNode.

(** [location] is given by the list under its key [coordinates]; reading
    index 1 or 0 of a shorter list raises [IndexError], the [None] here. *)
Definition __init__ (_id value : pyobj) (location : list R) : option Node.t :=
  match location !! 1%nat, location !! 0%nat with
  | Some latitude, Some longitude =>
      Some (Node.mk (PyStr (py_str _id)) (latitude, longitude) value)
  | _, _ => None
  end.

(** The constructor applied to the fields of a document, as keywords. *)
Definition of_document (d : document) : option Node.t :=
  __init__ (_id d) (doc_value d) (location_coordinates d).

End MongoNode.

(** ** The distance in binary64 *)

(** The lines of [Radius.convert_to], [EarthsRadius.convert_to] and
    [haversine] once more, on IEEE 754 binary64 numbers with their
    rounding.  [math.sin], [math.cos], [math.atan2] and [pow] go to the C
    library: they are parameters of [haversine]. *)
Module Binary64.

Import PrimFloat.

(** [Py_MATH_PI], the binary64 number nearest to pi *)
Definition pi : float := 0x1.921fb54442d18p+1%float.

(** [math.radians(x)]: [x * (pi / 180)] *)
Definition math_radians (x : float) : float := (x * (pi / 180))%float.

(** [math.sqrt(x)]: a domain error below zero *)
Definition math_sqrt (x : float) : result float :=
  if (x <? 0)%float then Raise ValueError else Ok (sqrt x).

(** The binary64 number nearest to 1609.344 *)
Definition meters_per_mile : float := 0x1.925604189374cp+10%float.

Definition convert_to (meters : float) (unit : pyobj) : result float :=
  if py_eq unit (PyUnit KILOMETERS) then Ok (meters / 1000)%float
  else if py_eq unit (PyUnit MILES) then Ok (meters / meters_per_mile)%float
  else if py_eq unit (PyUnit METERS) then Ok meters
  else Raise ValueError.

Definition EarthsRadius_convert_to (unit : pyobj) : result float :=
  convert_to 6371000%float unit.

Section Libm.

Variables (sin cos : float -> float) (atan2 pow : float -> float -> float).

Definition haversine (coordinates other : float * float) (unit : pyobj)
  : result float :=
  let '(lat1, lon1) := coordinates in
  let '(lat2, lon2) := other in
  let phi_a := math_radians lat1 in
  let phi_b := math_radians lat2 in
  let delta_latitudes := math_radians (lat2 - lat1)%float in
  let delta_longitudes := math_radians (lon2 - lon1)%float in
  let a := (pow (sin (delta_latitudes / 2)) 2
            + cos phi_a * cos phi_b * pow (sin (delta_longitudes / 2)) 2)%float in
  do sa <- math_sqrt a;
  do sb <- math_sqrt (1 - a)%float;
  let c := (2 * atan2 sa sb)%float in
  do r <- EarthsRadius_convert_to unit;
  Ok (r * c)%float.

End Libm.

(** Two points of the globe, at latitudes -82 and 82 and half a turn of
    longitude apart. *)
Definition south : float * float := ((-82)%float, (-180)%float).
Definition north : float * float := (82%float, 0%float).

(** What the C library returns at the arguments reached from [south] and
    [north]: the sine and the cosine of 82 degrees and the square of that
    sine (the sine of 90 degrees and its square are 1). *)
Definition sin_82 : float := 0x1.fb046a930947ap-1%float.
Definition cos_82 : float := 0x1.1d06c968d9e1ap-3%float.
Definition sin_82_squared : float := 0x1.f6153f1af3dc1p-1%float.

(** Functions that agree with the C library at those arguments. *)
Definition sin_table (x : float) : float :=
  if (x =? 0x1.921fb54442d18p+0)%float then 1%float else sin_82.
Definition cos_table (_ : float) : float := cos_82.
Definition pow_table (x _ : float) : float := (x * x)%float.
Definition atan2_table (_ _ : float) : float := 0%float.

End Binary64.

(** * Properties *)

(** ** Exceptions and comparisons *)

Lemma bind_Ok {A B : Type} (a : A) (k : A -> result B) :
  bind (Ok a) k = k a.
Proof. reflexivity. Qed.

Lemma float_le_true (x y : R) : float_le x y = true <-> x <= y.
Proof. unfold float_le. destruct (Rle_dec x y); split; (done || lra). Qed.

Lemma float_le_false (x y : R) : float_le x y = false <-> y < x.
Proof. unfold float_le. destruct (Rle_dec x y); split; (done || lra). Qed.

Lemma math_sqrt_nonneg (x : R) : 0 <= x -> math_sqrt x = Ok (sqrt x).
Proof. intros Hx. unfold math_sqrt. destruct (Rlt_dec x 0); [lra | done]. Qed.

(** ** Trigonometry behind the formula *)

Lemma math_radians_minus (x y : R) :
  math_radians (y - x) = math_radians y - math_radians x.
Proof. unfold math_radians. lra. Qed.

Lemma sin_half_sqr (x : R) : (sin (x / 2)) ^ 2 = (1 - cos x) / 2.
Proof.
  replace (cos x) with (cos (2 * (x / 2))) by (f_equal; lra).
  rewrite cos_2a_sin. lra.
Qed.

Lemma sin_sqr_bounds (x : R) : 0 <= (sin x) ^ 2 <= 1.
Proof.
  pose proof (SIN_bound x) as [Hl Hu]. split; nra.
Qed.

(** The quantity under the square roots is the haversine of the central
    angle: it stays within [0, 1] for all latitudes and longitudes. *)
Lemma haversine_a_bounds (p1 p2 l : R) :
  0 <= (sin ((p2 - p1) / 2)) ^ 2 + cos p1 * cos p2 * (sin (l / 2)) ^ 2 <= 1.
Proof.
  rewrite sin_half_sqr.
  pose proof (sin_sqr_bounds (l / 2)) as [Hs0 Hs1].
  pose proof (COS_bound (p2 - p1)) as [Hm0 Hm1].
  pose proof (COS_bound (p2 + p1)) as [Hp0 Hp1].
  rewrite cos_minus in *. rewrite cos_plus in Hp0, Hp1.
  set (s := (sin (l / 2)) ^ 2) in *.
  set (cc := cos p1 * cos p2).
  set (ss := sin p1 * sin p2).
  replace (cos p2 * cos p1) with cc in * by (unfold cc; ring).
  replace (sin p2 * sin p1) with ss in * by (unfold ss; ring).
  clearbody s cc ss. split; nra.
Qed.

Lemma math_atan2_nonneg (y x : R) : 0 <= y -> 0 <= math_atan2 y x.
Proof.
  intros Hy. unfold math_atan2.
  pose proof PI_RGT_0 as Hpi.
  pose proof (atan_bound (y / x)) as [Hlo Hhi].
  repeat match goal with |- context [Rlt_dec ?a ?b] => destruct (Rlt_dec a b) end;
    try lra.
  destruct (Req_dec y 0) as [-> | Hne].
  - unfold Rdiv. rewrite Rmult_0_l, atan_0. lra.
  - assert (0 < y / x) as Hq by (apply Rdiv_lt_0_compat; lra).
    apply atan_increasing in Hq. rewrite atan_0 in Hq. lra.
Qed.

Lemma math_atan2_0_1 : math_atan2 0 1 = 0.
Proof.
  unfold math_atan2. destruct (Rlt_dec 0 1); [| lra].
  unfold Rdiv. by rewrite Rmult_0_l, atan_0.
Qed.

(** ** haversine *)

Lemma EarthsRadius_convert_to_unit (u : Unit) :
  EarthsRadius.convert_to (PyUnit u) = Ok (earth_radius_in u).
Proof. by destruct u. Qed.

(** Over the real numbers [a] stays within [0, 1], whatever the points:
    a domain error of [math.sqrt] in [haversine] can only come from the
    rounding of binary64 (see [Binary64]). *)
Lemma haversine_a_range (c o : R * R) : 0 <= haversine_a c o <= 1.
Proof.
  destruct c as [lat1 lon1], o as [lat2 lon2]. unfold haversine_a.
  rewrite math_radians_minus. apply haversine_a_bounds.
Qed.

Lemma earth_radius_in_pos (u : Unit) : 0 < earth_radius_in u.
Proof. destruct u; unfold earth_radius_in; lra. Qed.

Lemma haversine_a_same (c : R * R) : haversine_a c c = 0.
Proof.
  destruct c as [lat lon]. unfold haversine_a, math_radians.
  replace ((lat - lat) * (PI / 180) / 2) with 0 by lra.
  replace ((lon - lon) * (PI / 180) / 2) with 0 by lra.
  rewrite sin_0. lra.
Qed.

Lemma haversine_unfold (c o : R * R) (unit : pyobj) :
  haversine c o unit
  = (do sa <- math_sqrt (haversine_a c o);
     do sb <- math_sqrt (1 - haversine_a c o);
     do r <- EarthsRadius.convert_to unit;
     Ok (r * (2 * math_atan2 sa sb))).
Proof. by destruct c, o. Qed.

(** What [haversine] returns, when it returns. *)
Lemma haversine_Ok_inv (c o : R * R) (unit : pyobj) (d : R) :
  haversine c o unit = Ok d ->
  exists u : Unit,
    unit = PyUnit u /\
    d = earth_radius_in u
        * (2 * math_atan2 (sqrt (haversine_a c o))
                          (sqrt (1 - haversine_a c o))).
Proof.
  rewrite haversine_unfold. unfold math_sqrt.
  destruct (Rlt_dec (haversine_a c o) 0); [done |].
  destruct (Rlt_dec (1 - haversine_a c o) 0); [done |].
  rewrite !bind_Ok. destruct unit as [| | | u]; try done.
  rewrite EarthsRadius_convert_to_unit, bind_Ok. intros [= <-]. by exists u.
Qed.

(** Every exception of [haversine] is a [ValueError]: that of a square
    root or that of the conversion. *)
Lemma haversine_Raise_inv (c o : R * R) (unit : pyobj) (e : exn) :
  haversine c o unit = Raise e -> e = ValueError.
Proof.
  rewrite haversine_unfold. unfold math_sqrt.
  destruct (Rlt_dec (haversine_a c o) 0); [by intros [= <-] |].
  destruct (Rlt_dec (1 - haversine_a c o) 0); [by intros [= <-] |].
  rewrite !bind_Ok. destruct unit as [| | | u].
  - by intros [= <-].
  - by intros [= <-].
  - by intros [= <-].
  - by rewrite EarthsRadius_convert_to_unit.
Qed.

Lemma haversine_nonneg (c o : R * R) (unit : pyobj) (d : R) :
  haversine c o unit = Ok d -> 0 <= d.
Proof.
  intros (u & _ & ->)%haversine_Ok_inv.
  pose proof (earth_radius_in_pos u).
  pose proof (math_atan2_nonneg (sqrt (haversine_a c o))
                (sqrt (1 - haversine_a c o)) (sqrt_pos _)).
  nra.
Qed.

Lemma haversine_same (c : R * R) (u : Unit) :
  haversine c c (PyUnit u) = Ok 0.
Proof.
  rewrite haversine_unfold, haversine_a_same, Rminus_0_r.
  rewrite !math_sqrt_nonneg by lra.
  rewrite !bind_Ok, sqrt_0, sqrt_1, math_atan2_0_1.
  rewrite EarthsRadius_convert_to_unit, bind_Ok. f_equal. lra.
Qed.

(** C9: for every coordinate pair A and each of METERS, KILOMETERS and
    MILES, [haversine(A, A, unit)] is 0. *)
Theorem haversine_identical_points (A : R * R) (u : Unit) :
  haversine A A (PyUnit u) = Ok 0.
Proof. apply haversine_same. Qed.

(** ** haversine in binary64 *)

Section Binary64Facts.

Import PrimFloat.

(** C2 fails on the code at the points (-82, -180) and (82, 0): with the
    values the C library returns for the two sines, the two cosines and
    the two squares, the sum [a] is 1.0000000000000002 in binary64, so
    [math.sqrt(1.0 - a)] raises [ValueError] and [haversine] returns no
    distance, where the formula gives the radius times pi. *)
Theorem haversine_binary64_domain_error
  (sin cos : float -> float) (atan2 pow : float -> float -> float) :
  sin (Binary64.math_radians (82 - -82) / 2)%float = Binary64.sin_82 ->
  sin (Binary64.math_radians (0 - -180) / 2)%float = 1%float ->
  cos (Binary64.math_radians (-82)) = Binary64.cos_82 ->
  cos (Binary64.math_radians 82) = Binary64.cos_82 ->
  pow Binary64.sin_82 2%float = Binary64.sin_82_squared ->
  pow 1%float 2%float = 1%float ->
  (Binary64.sin_82_squared + Binary64.cos_82 * Binary64.cos_82 * 1)%float
  = 0x1.0000000000001p+0%float /\
  Binary64.haversine sin cos atan2 pow Binary64.south Binary64.north
    (PyUnit METERS)
  = Raise ValueError.
Proof.
  intros Hs1 Hs2 Hc1 Hc2 Hp1 Hp2. split; [vm_compute; reflexivity |].
  unfold Binary64.haversine, Binary64.south, Binary64.north. cbv zeta.
  rewrite Hs1, Hs2, Hc1, Hc2, Hp1, Hp2. vm_compute. reflexivity.
Qed.

Lemma haversine_binary64_domain_error_witness :
  Binary64.sin_table (Binary64.math_radians (82 - -82) / 2)%float
  = Binary64.sin_82 /\
  Binary64.sin_table (Binary64.math_radians (0 - -180) / 2)%float = 1%float /\
  Binary64.cos_table (Binary64.math_radians (-82)) = Binary64.cos_82 /\
  Binary64.cos_table (Binary64.math_radians 82) = Binary64.cos_82 /\
  Binary64.pow_table Binary64.sin_82 2%float = Binary64.sin_82_squared /\
  Binary64.pow_table 1%float 2%float = 1%float /\
  (Binary64.sin_82_squared + Binary64.cos_82 * Binary64.cos_82 * 1)%float
  = 0x1.0000000000001p+0%float /\
  Binary64.haversine Binary64.sin_table Binary64.cos_table
    Binary64.atan2_table Binary64.pow_table Binary64.south Binary64.north
    (PyUnit METERS)
  = Raise ValueError.
Proof.
  do 6 (split; [vm_compute; reflexivity |]).
  apply (haversine_binary64_domain_error Binary64.sin_table
           Binary64.cos_table Binary64.atan2_table Binary64.pow_table);
    vm_compute; reflexivity.
Defined.

End Binary64Facts.

(** ** Radius.convert_to *)

(** C5: [convert_to] returns m for METERS, m / 1000 for KILOMETERS and
    m / 1609.344 for MILES, and raises (a [ValueError]) exactly when the
    unit is not one of these three members, [None] included; there is no
    default. *)
Theorem convert_to_units_or_error (r : Radius.t) :
  Radius.convert_to r (PyUnit METERS) = Ok (Radius.meters r) /\
  Radius.convert_to r (PyUnit KILOMETERS) = Ok (Radius.meters r / 1000) /\
  Radius.convert_to r (PyUnit MILES) = Ok (Radius.meters r / 1609.344) /\
  Radius.convert_to r PyNone = Raise ValueError /\
  forall unit : pyobj,
    (Radius.convert_to r unit = Raise ValueError
     <-> forall u : Unit, unit <> PyUnit u) /\
    ((exists e, Radius.convert_to r unit = Raise e)
     <-> forall u : Unit, unit <> PyUnit u).
Proof.
  repeat split; try done.
  - intros H u ->. by destruct u.
  - intros H. destruct unit as [| | | u]; try done. by destruct (H u).
  - intros [e H] u ->. by destruct u.
  - intros H. exists ValueError.
    destruct unit as [| | | u]; try done. by destruct (H u).
Qed.

(** ** Node.__eq__ *)

(** C6: two nodes are equal exactly when their values are equal; the
    identifier and the coordinates play no role: the same value under
    different identifiers and coordinates compares equal, different
    values compare unequal. *)
Theorem Node_eq_by_value_only
  (id1 id2 : pyobj) (c1 c2 : R * R) (v1 v2 : pyobj) :
  (Node.__eq__ (Node.mk id1 c1 v1) (Node.IsNode (Node.mk id2 c2 v2)) = true
   <-> v1 = v2) /\
  (Node.__eq__ (Node.mk id1 c1 v1) (Node.IsNode (Node.mk id2 c2 v2)) = false
   <-> v1 <> v2) /\
  Node.__eq__ (Node.mk id1 c1 v1) (Node.IsNode (Node.mk id2 c2 v1)) = true.
Proof.
  unfold Node.__eq__, py_eq. cbn.
  rewrite bool_decide_eq_true, bool_decide_eq_false.
  repeat split; try done. by apply bool_decide_eq_true.
Qed.

(** ** InMemoryGeospatialRepository.delete *)

(** C7: [delete] returns true exactly when a node is stored under the
    identifier, and then removes it, so that [get] and [contains] report
    absence afterwards and the other entries stay; when nothing is stored
    under it, [delete] returns false, raises nothing and leaves the
    repository as it was. *)
Theorem delete_true_iff_stored (s : Repo.t) (k : pyobj) :
  match Repo.get s k with
  | Some _ =>
      exists s' : Repo.t,
        Repo.delete s k = Ok (true, s') /\
        Repo.get s' k = None /\
        Repo.contains s' k = false /\
        forall j : pyobj, j <> k -> Repo.get s' j = Repo.get s j
  | None => Repo.delete s k = Ok (false, s)
  end.
Proof.
  unfold Repo.delete, Repo.contains, Repo.get, dict_pop.
  destruct (Repo.nodes s !! k) as [n |] eqn:Hk; [| done].
  eexists. split; [done |]. cbn.
  rewrite lookup_delete_eq. repeat split.
  intros j Hj. by rewrite lookup_delete_ne.
Qed.

(** ** InMemoryGeospatialRepository.upsert *)

Lemma upsert_truthy (s : Repo.t) (n : Node.t) :
  truthy (Node.node_id n) = true ->
  Repo.upsert s n
  = (Node.mk (Node.node_id n) (Node.coordinates n) (Node.value n),
     Repo.mk (<[Node.node_id n :=
                Node.mk (Node.node_id n) (Node.coordinates n) (Node.value n)]>
              (Repo.nodes s))).
Proof. intros H. unfold Repo.upsert. by rewrite H. Qed.

Lemma upsert_falsy (s : Repo.t) (n : Node.t) :
  truthy (Node.node_id n) = false ->
  Repo.upsert s n
  = (Node.mk (PyInt (Repo.__len__ s + 1)) (Node.coordinates n) (Node.value n),
     Repo.mk (<[PyInt (Repo.__len__ s + 1) :=
                Node.mk (PyInt (Repo.__len__ s + 1))
                        (Node.coordinates n) (Node.value n)]>
              (Repo.nodes s))).
Proof. intros H. unfold Repo.upsert. by rewrite H. Qed.


(** C8 as stated fails for an identifier that is present but falsy: the
    integer 0 makes each call mint a further identifier. *)
Lemma upsert_zero_identifier_not_idempotent :
  Node.node_id zero_id = PyInt 0 /\
  snd (Repo.upsert (snd (Repo.upsert Repo.__init__ zero_id)) zero_id)
  <> snd (Repo.upsert Repo.__init__ zero_id).
Proof.
  split; [reflexivity |]. intros H.
  apply (f_equal Repo.__len__) in H. vm_compute in H. discriminate H.
Qed.

(** C8, amended: for every state and every node whose identifier is truthy
    (not [None], not 0, not the empty string), a second [upsert] of the
    same node returns the same node and leaves the same stored state as
    the first. *)
Theorem upsert_idempotent (s : Repo.t) (n : Node.t) :
  truthy (Node.node_id n) = true ->
  Repo.upsert (snd (Repo.upsert s n)) n = Repo.upsert s n.
Proof.
  intros H. rewrite !upsert_truthy by done. cbn.
  by rewrite insert_insert_eq.
Qed.

Lemma upsert_idempotent_witness :
  truthy (Node.node_id (Node.mk (PyInt 1) origin (PyStr "another"))) = true /\
  Repo.upsert
    (snd (Repo.upsert one_node (Node.mk (PyInt 1) origin (PyStr "another"))))
    (Node.mk (PyInt 1) origin (PyStr "another"))
  = Repo.upsert one_node (Node.mk (PyInt 1) origin (PyStr "another")).
Proof.
  split; [reflexivity |].
  apply (upsert_idempotent one_node
           (Node.mk (PyInt 1) origin (PyStr "another"))).
  reflexivity.
Defined.




(** C3 does not hold once a node has been deleted: after [upsert(me)],
    [upsert(you)] and [delete(1)], the identifier minted for [him] is 2,
    under which [you] is stored; [you] is overwritten and the repository
    still holds one node. *)
Theorem upsert_mints_stored_identifier_after_delete :
  fst (Repo.upsert Repo.__init__ me) = Node.mk (PyInt 1) origin (PyStr "me") /\
  fst (Repo.upsert one_node you) = Node.mk (PyInt 2) origin (PyStr "you") /\
  Repo.delete two_nodes (PyInt 1) = Ok (true, after_delete) /\
  Repo.get after_delete (PyInt 2)
  = Some (Node.mk (PyInt 2) origin (PyStr "you")) /\
  fst (Repo.upsert after_delete him)
  = Node.mk (PyInt 2) origin (PyStr "him") /\
  Repo.get (snd (Repo.upsert after_delete him)) (PyInt 2)
  = Some (Node.mk (PyInt 2) origin (PyStr "him")) /\
  Repo.__len__ (snd (Repo.upsert after_delete him)) = 1%Z.
Proof. repeat split; vm_compute; reflexivity. Qed.

(** ** InMemoryGeospatialRepository.search *)

Lemma stored_iff_item (s : Repo.t) (n : Node.t) :
  n ∈ (map_to_list (Repo.nodes s)).*2 <-> exists k, Repo.get s k = Some n.
Proof.
  unfold Repo.get. rewrite list_elem_of_fmap. split.
  - intros ([k n'] & -> & H%elem_of_map_to_list). by exists k.
  - intros [k H]. exists (k, n). split; [done |].
    by apply elem_of_map_to_list.
Qed.

(** The comprehension stops at the first item for which [haversine]
    raises, with that exception; otherwise it keeps, in order, the items
    whose distance passes the test. *)
Lemma scan_cases (items : list (pyobj * Node.t)) (c : R * R) (r : Radius.t) :
  (exists l : list Node.t,
     Repo.scan items c r = Ok l /\
     (forall kn : pyobj * Node.t,
        kn ∈ items ->
        exists d : R,
          haversine c (Node.coordinates kn.2) (PyUnit METERS) = Ok d) /\
     l `sublist_of` items.*2 /\
     forall n : Node.t,
       n ∈ l <->
       n ∈ items.*2 /\
       exists d : R,
         haversine c (Node.coordinates n) (PyUnit METERS) = Ok d /\
         d <= Radius.to_meters r)
  \/
  (exists (e : exn) (kn : pyobj * Node.t),
     Repo.scan items c r = Raise e /\
     kn ∈ items /\
     haversine c (Node.coordinates kn.2) (PyUnit METERS) = Raise e).
Proof.
  induction items as [| [k node] rest IH].
  - left. exists []. cbn. split; [done |].
    split; [by intros kn ?%elem_of_nil |]. split; [done |].
    intros n. split; [by intros ?%elem_of_nil | by intros [?%elem_of_nil _]].
  - cbn [Repo.scan].
    destruct (haversine c (Node.coordinates node) (PyUnit METERS))
      as [d0 | e0] eqn:Hd0.
    + rewrite bind_Ok.
      destruct IH as [(tl & Htl & Hall & Hsub & Hin) | (e & kn & Hr & Hkn & He)].
      * left. rewrite Htl, bind_Ok. cbn [fmap list_fmap snd].
        assert (forall kn : pyobj * Node.t,
                  kn ∈ (k, node) :: rest ->
                  exists d : R,
                    haversine c (Node.coordinates kn.2) (PyUnit METERS) = Ok d)
          as Hall'.
        { intros kn [-> | Hkn]%elem_of_cons; [by exists d0 | by apply Hall]. }
        destruct (float_le d0 (Radius.to_meters r)) eqn:Hle.
        -- apply float_le_true in Hle.
           exists (node :: tl). split; [done |]. split; [done |].
           split; [by apply sublist_skip |].
           intros n. rewrite !elem_of_cons, Hin. split.
           ++ intros [-> | [? ?]]; [| by auto]. split; [by left |]. by exists d0.
           ++ intros [[-> | ?] ?]; by auto.
        -- apply float_le_false in Hle.
           exists tl. split; [done |]. split; [done |].
           split; [by apply sublist_cons |].
           intros n. rewrite elem_of_cons, Hin. split.
           ++ intros [? ?]. by auto.
           ++ intros [[-> | ?] Hd]; [| by auto].
              destruct Hd as (d & Hd & Hdr). rewrite Hd0 in Hd.
              injection Hd as <-. lra.
      * right. exists e, kn. rewrite Hr. split; [done |].
        split; [by apply elem_of_cons; right | done].
    + right. exists e0, (k, node). split; [done |].
      split; [by apply elem_of_cons; left | done].
Qed.

Lemma search_cases (s : Repo.t) (c : R * R) (r : Radius.t) :
  (exists l : list Node.t,
     Repo.search s c r = Ok l /\
     (forall (k : pyobj) (n : Node.t),
        Repo.get s k = Some n ->
        exists d : R,
          haversine c (Node.coordinates n) (PyUnit METERS) = Ok d) /\
     l `sublist_of` (map_to_list (Repo.nodes s)).*2 /\
     forall n : Node.t,
       n ∈ l <->
       (exists k : pyobj, Repo.get s k = Some n) /\
       exists d : R,
         haversine c (Node.coordinates n) (PyUnit METERS) = Ok d /\
         d <= Radius.to_meters r)
  \/
  (exists (e : exn) (k : pyobj) (n : Node.t),
     Repo.search s c r = Raise e /\
     Repo.get s k = Some n /\
     haversine c (Node.coordinates n) (PyUnit METERS) = Raise e).
Proof.
  unfold Repo.search.
  destruct (scan_cases (map_to_list (Repo.nodes s)) c r)
    as [(l & Hl & Hall & Hsub & Hin) | (e & [k n] & Hr & Hkn & He)].
  - left. exists l. split; [done |]. split; [| split; [done |]].
    + intros k n Hk. apply (Hall (k, n)). by apply elem_of_map_to_list.
    + intros n. by rewrite Hin, stored_iff_item.
  - right. exists e, k, n. split; [done |].
    split; [by apply elem_of_map_to_list in Hkn | done].
Qed.

(** C1, as far as the code goes: when [search] returns, it returns
    exactly the stored nodes whose [haversine] distance from the center,
    in meters, is at most [radius.to_meters()], each stored node at most
    once; it raises only the exception that [haversine] raises for a
    stored node, and then returns nothing. *)
Theorem search_exhaustive_or_raises
  (s : Repo.t) (center : R * R) (radius : Radius.t) :
  match Repo.search s center radius with
  | Ok l =>
      l ⊆+ (map_to_list (Repo.nodes s)).*2 /\
      (forall (k : pyobj) (n : Node.t),
         Repo.get s k = Some n ->
         exists d : R,
           haversine center (Node.coordinates n) (PyUnit METERS) = Ok d) /\
      forall n : Node.t,
        n ∈ l <->
        (exists k : pyobj, Repo.get s k = Some n) /\
        exists d : R,
          haversine center (Node.coordinates n) (PyUnit METERS) = Ok d /\
          d <= Radius.to_meters radius
  | Raise e =>
      exists (k : pyobj) (n : Node.t),
        Repo.get s k = Some n /\
        haversine center (Node.coordinates n) (PyUnit METERS) = Raise e
  end.
Proof.
  destruct (search_cases s center radius)
    as [(l & -> & Hall & Hsub & Hin) | (e & k & n & -> & Hk & He)].
  - split; [by apply sublist_submseteq |]. by split.
  - by exists k, n.
Qed.

Lemma one_node_nodes :
  Repo.nodes one_node = {[PyInt 1 := Node.mk (PyInt 1) origin (PyStr "me")]}.
Proof. vm_compute. reflexivity. Qed.

(** C4 as stated fails at radius 0: a node stored at the center is at
    distance 0, which is at most 0, and [search] returns it. *)
Lemma search_zero_radius_returns_center_node :
  Radius.to_meters (Radius.mk 0) <= 0 /\
  Repo.get one_node (PyInt 1) = Some (Node.mk (PyInt 1) origin (PyStr "me")) /\
  haversine origin origin (PyUnit METERS) = Ok 0 /\
  Repo.search one_node origin (Radius.mk 0)
  = Ok [Node.mk (PyInt 1) origin (PyStr "me")] /\
  Repo.search one_node origin (Radius.mk 0) <> Ok [].
Proof.
  assert (Repo.search one_node origin (Radius.mk 0)
          = Ok [Node.mk (PyInt 1) origin (PyStr "me")]) as Hs.
  { unfold Repo.search. rewrite one_node_nodes, map_to_list_singleton.
    cbn [Repo.scan Node.coordinates]. rewrite haversine_same, !bind_Ok.
    replace (float_le 0 (Radius.to_meters (Radius.mk 0))) with true; [done |].
    symmetry. apply float_le_true. cbn. lra. }
  split; [cbn; lra |].
  split; [unfold Repo.get; by rewrite one_node_nodes, lookup_singleton_eq |].
  split; [apply haversine_same |].
  split; [done |]. by rewrite Hs.
Qed.

(** C4, amended: for every state, center and radius of non-positive meter
    value, when [search] returns, the result is empty if the meter value
    is negative, and is exactly the stored nodes at distance 0 from the
    center if it is 0; [search] raises only the exception that
    [haversine] raises for a stored node. *)
Theorem search_nonpositive_radius
  (s : Repo.t) (center : R * R) (radius : Radius.t) :
  Radius.to_meters radius <= 0 ->
  match Repo.search s center radius with
  | Ok l =>
      (Radius.to_meters radius < 0 -> l = []) /\
      forall n : Node.t,
        n ∈ l <->
        Radius.to_meters radius = 0 /\
        (exists k : pyobj, Repo.get s k = Some n) /\
        haversine center (Node.coordinates n) (PyUnit METERS) = Ok 0
  | Raise e =>
      exists (k : pyobj) (n : Node.t),
        Repo.get s k = Some n /\
        haversine center (Node.coordinates n) (PyUnit METERS) = Raise e
  end.
Proof.
  intros Hr.
  destruct (search_cases s center radius)
    as [(l & -> & _ & _ & Hin) | (e & k & n & -> & Hk & He)];
    [| by exists k, n].
  assert (forall n : Node.t,
            n ∈ l <->
            Radius.to_meters radius = 0 /\
            (exists k : pyobj, Repo.get s k = Some n) /\
            haversine center (Node.coordinates n) (PyUnit METERS) = Ok 0)
    as Hchar.
  { intros n. rewrite Hin. split.
    - intros (Hst & d & Hd & Hdr).
      pose proof (haversine_nonneg _ _ _ _ Hd) as Hd0.
      assert (d = 0) as -> by lra. split; [lra | done].
    - intros (Hz & Hst & Hd). split; [done |]. exists 0. split; [done | lra]. }
  split; [| done].
  intros Hneg. apply elem_of_nil_inv. intros n [Hz _]%Hchar. lra.
Qed.

Lemma search_nonpositive_radius_witness :
  Radius.to_meters (Radius.mk (-100)) <= 0 /\
  match Repo.search one_node origin (Radius.mk (-100)) with
  | Ok l =>
      (Radius.to_meters (Radius.mk (-100)) < 0 -> l = []) /\
      forall n : Node.t,
        n ∈ l <->
        Radius.to_meters (Radius.mk (-100)) = 0 /\
        (exists k : pyobj, Repo.get one_node k = Some n) /\
        haversine origin (Node.coordinates n) (PyUnit METERS) = Ok 0
  | Raise e =>
      exists (k : pyobj) (n : Node.t),
        Repo.get one_node k = Some n /\
        haversine origin (Node.coordinates n) (PyUnit METERS) = Raise e
  end.
Proof.
  split; [cbn; lra |].
  apply (search_nonpositive_radius one_node origin (Radius.mk (-100))).
  cbn. lra.
Defined.

(** * Further properties *)

(** ** Radius: equality and conversions *)

Lemma Radius_eq_true (r1 r2 : Radius.t) :
  Radius.__eq__ r1 (Radius.IsRadius r2) = true
  <-> Radius.meters r1 = Radius.meters r2.
Proof.
  cbn. destruct (Req_dec_T (Radius.meters r1) (Radius.meters r2));
    split; (done || lra).
Qed.

Lemma convert_to_member (r : Radius.t) (u : Unit) :
  Radius.convert_to r (PyUnit u)
  = Ok (match u with
        | METERS => Radius.meters r
        | KILOMETERS => Radius.meters r / 1000
        | MILES => Radius.meters r / 1609.344
        end).
Proof. by destruct u. Qed.

(** [Radius.__eq__] compares the meter values: it is reflexive and
    symmetric, it holds exactly when the two radii convert to the same
    number in every unit, and an object that is not a [Radius] is never
    equal to one. *)
Theorem Radius_eq_same_length (r1 r2 : Radius.t) (o : pyobj) :
  (Radius.__eq__ r1 (Radius.IsRadius r2) = true
   <-> Radius.to_meters r1 = Radius.to_meters r2) /\
  (Radius.__eq__ r1 (Radius.IsRadius r2) = true
   <-> forall u : Unit,
         Radius.convert_to r1 (PyUnit u) = Radius.convert_to r2 (PyUnit u)) /\
  Radius.__eq__ r1 (Radius.IsRadius r1) = true /\
  Radius.__eq__ r1 (Radius.IsRadius r2) = Radius.__eq__ r2 (Radius.IsRadius r1) /\
  Radius.__eq__ r1 (Radius.NotRadius o) = false.
Proof.
  split; [apply Radius_eq_true |]. split; [| split; [| split; [| done]]].
  - rewrite Radius_eq_true. split.
    + intros H u. rewrite !convert_to_member. by rewrite H.
    + intros H. specialize (H METERS). rewrite !convert_to_member in H.
      by injection H.
  - by apply Radius_eq_true.
  - destruct (Radius.__eq__ r1 (Radius.IsRadius r2)) eqn:H12.
    + symmetry. apply Radius_eq_true. symmetry. by apply Radius_eq_true.
    + symmetry. apply not_true_is_false. intros H21.
      apply Radius_eq_true in H21. symmetry in H21.
      apply Radius_eq_true in H21. congruence.
Qed.

(** Conversion to a member of [Unit] raises nothing and never reverses an
    order: a radius of at most the meters of another has at most the
    other's value in every unit. *)
Theorem convert_to_monotone (r1 r2 : Radius.t) (u : Unit) :
  Radius.meters r1 <= Radius.meters r2 ->
  exists x1 x2 : R,
    Radius.convert_to r1 (PyUnit u) = Ok x1 /\
    Radius.convert_to r2 (PyUnit u) = Ok x2 /\
    x1 <= x2.
Proof.
  intros H. eexists _, _. rewrite !convert_to_member.
  split; [done |]. split; [done |]. destruct u; lra.
Qed.

Lemma convert_to_monotone_witness :
  Radius.meters (Radius.mk 500) <= Radius.meters (Radius.mk 5000) /\
  exists x1 x2 : R,
    Radius.convert_to (Radius.mk 500) (PyUnit MILES) = Ok x1 /\
    Radius.convert_to (Radius.mk 5000) (PyUnit MILES) = Ok x2 /\
    x1 <= x2.
Proof.
  assert (Radius.meters (Radius.mk 500) <= Radius.meters (Radius.mk 5000))
    as H by (cbn; lra).
  split; [exact H |].
  exact (convert_to_monotone (Radius.mk 500) (Radius.mk 5000) MILES H).
Defined.

(** ** EarthsRadius *)

(** The Earth's radius is 6371000 meters, 6371 kilometers and a little
    under 3958.7559 miles; any object that is not a member of [Unit]
    raises [ValueError]. *)
Theorem EarthsRadius_in_each_unit :
  EarthsRadius.convert_to (PyUnit METERS) = Ok 6371000 /\
  EarthsRadius.convert_to (PyUnit KILOMETERS) = Ok 6371 /\
  (exists miles : R,
     EarthsRadius.convert_to (PyUnit MILES) = Ok miles /\
     3958.7558 < miles < 3958.7559) /\
  forall unit : pyobj,
    EarthsRadius.convert_to unit = Raise ValueError
    <-> forall u : Unit, unit <> PyUnit u.
Proof.
  split; [done |]. split; [| split].
  - unfold EarthsRadius.convert_to. rewrite convert_to_member. cbn.
    f_equal. lra.
  - eexists. unfold EarthsRadius.convert_to. rewrite convert_to_member.
    split; [done |]. cbn.
    split; lra.
  - intros unit. split.
    + intros H u ->. by destruct u.
    + intros H. destruct unit as [| | | u]; try done. by destruct (H u).
Qed.

(** ** haversine: errors, symmetry and range of the result *)

Lemma sin_sqr_opp (x y : R) : x = - y -> (sin x) ^ 2 = (sin y) ^ 2.
Proof. intros ->. rewrite sin_neg. ring. Qed.

Lemma haversine_a_sym (c o : R * R) : haversine_a c o = haversine_a o c.
Proof.
  destruct c as [lat1 lon1], o as [lat2 lon2]. unfold haversine_a.
  rewrite (sin_sqr_opp (math_radians (lat2 - lat1) / 2)
             (math_radians (lat1 - lat2) / 2))
    by (unfold math_radians; lra).
  rewrite (sin_sqr_opp (math_radians (lon2 - lon1) / 2)
             (math_radians (lon1 - lon2) / 2))
    by (unfold math_radians; lra).
  ring.
Qed.

Lemma math_atan2_first_quadrant (y x : R) :
  0 <= y -> 0 <= x -> 0 <= math_atan2 y x <= PI / 2.
Proof.
  intros Hy Hx. split; [by apply math_atan2_nonneg |].
  unfold math_atan2. pose proof PI_RGT_0 as Hpi.
  pose proof (atan_bound (y / x)) as [Hlo Hhi].
  repeat match goal with |- context [Rlt_dec ?a ?b] => destruct (Rlt_dec a b) end;
    lra.
Qed.

(** [haversine] is symmetric in its two points, for every unit argument
    (also when it raises). *)
Theorem haversine_symmetric (A B : R * R) (unit : pyobj) :
  haversine A B unit = haversine B A unit.
Proof. by rewrite !haversine_unfold, (haversine_a_sym A B). Qed.

Lemma PI_upper : PI < 3.14159266.
Proof.
  pose proof (PI_2_3_7_ineq 4) as [_ H].
  unfold sum_f_R0, tg_alt, PI_2_3_7_tg, Ratan_seq in H.
  simpl in H. lra.
Qed.

Lemma haversine_upper (c o : R * R) (unit : pyobj) (d : R) :
  haversine c o unit = Ok d ->
  exists u : Unit, unit = PyUnit u /\ d <= 3.14159266 * earth_radius_in u.
Proof.
  intros (u & -> & ->)%haversine_Ok_inv. exists u. split; [done |].
  pose proof (earth_radius_in_pos u) as Hr. pose proof PI_upper as Hpi.
  pose proof (math_atan2_first_quadrant
                (sqrt (haversine_a c o)) (sqrt (1 - haversine_a c o))
                (sqrt_pos _) (sqrt_pos _)) as [Hlo Hhi].
  nra.
Qed.

(** [haversine] returns a number only for a member of [Unit], and the
    only exception it raises is [ValueError]: for any other unit
    argument it raises [ValueError], whatever the two points are. *)
Theorem haversine_raises_only_ValueError (A B : R * R) (unit : pyobj) :
  match haversine A B unit with
  | Ok _ => exists u : Unit, unit = PyUnit u
  | Raise e => e = ValueError
  end.
Proof.
  destruct (haversine A B unit) as [d | e] eqn:H.
  - apply haversine_Ok_inv in H as (u & -> & _). by exists u.
  - by apply haversine_Raise_inv in H.
Qed.

(** A distance that [haversine] returns is never negative and never more
    than 3.14159266 times the Earth's radius in the unit (in meters, at
    most 20015087). *)
Theorem haversine_nonneg_bounded (A B : R * R) (u : Unit) (d : R) :
  haversine A B (PyUnit u) = Ok d ->
  0 <= d <= 3.14159266 * earth_radius_in u /\
  (u = METERS -> d <= 20015087).
Proof.
  intros H. pose proof (haversine_nonneg _ _ _ _ H) as H0.
  apply haversine_upper in H as (u' & [= <-] & Hd).
  split; [by split |]. intros ->. cbn [earth_radius_in] in Hd. lra.
Qed.

Lemma haversine_nonneg_bounded_witness :
  haversine origin origin (PyUnit METERS) = Ok 0 /\
  0 <= 0 <= 3.14159266 * earth_radius_in METERS /\
  (METERS = METERS -> 0 <= 20015087).
Proof.
  assert (haversine origin origin (PyUnit METERS) = Ok 0) as H
    by apply haversine_same.
  split; [exact H |].
  exact (haversine_nonneg_bounded origin origin METERS 0 H).
Defined.

(** ** Node.__eq__ as a relation *)

(** [Node.__eq__] is an equivalence on nodes (reflexive, symmetric,
    transitive), and no object other than a node is equal to a node. *)
Theorem Node_eq_equivalence (n1 n2 n3 : Node.t) (o : pyobj) :
  Node.__eq__ n1 (Node.IsNode n1) = true /\
  Node.__eq__ n1 (Node.IsNode n2) = Node.__eq__ n2 (Node.IsNode n1) /\
  (Node.__eq__ n1 (Node.IsNode n2) = true ->
   Node.__eq__ n2 (Node.IsNode n3) = true ->
   Node.__eq__ n1 (Node.IsNode n3) = true) /\
  Node.__eq__ n1 (Node.NotNode o) = false.
Proof.
  unfold Node.__eq__, py_eq. repeat split.
  - by apply bool_decide_eq_true.
  - apply bool_decide_ext. split; congruence.
  - rewrite !bool_decide_eq_true. congruence.
Qed.

(** ** InMemoryGeospatialRepository: upsert, get, contains, delete *)

Lemma len_nonneg (s : Repo.t) : (0 <= Repo.__len__ s)%Z.
Proof. unfold Repo.__len__. lia. Qed.

Lemma truthy_minted (s : Repo.t) : truthy (PyInt (Repo.__len__ s + 1)) = true.
Proof.
  cbn. apply negb_true_iff, Z.eqb_neq. pose proof (len_nonneg s). lia.
Qed.

Lemma upsert_id_truthy (s : Repo.t) (n : Node.t) :
  truthy (Node.node_id (fst (Repo.upsert s n))) = true.
Proof.
  unfold Repo.upsert. cbn.
  destruct (truthy (Node.node_id n)) eqn:H; [done | apply truthy_minted].
Qed.

Lemma upsert_nodes (s : Repo.t) (n : Node.t) :
  Repo.nodes (snd (Repo.upsert s n))
  = <[Node.node_id (fst (Repo.upsert s n)) := fst (Repo.upsert s n)]>
      (Repo.nodes s).
Proof. reflexivity. Qed.

Lemma delete_Ok (s : Repo.t) (k : pyobj) :
  Repo.delete s k
  = Ok (Repo.contains s k,
        if Repo.contains s k then Repo.mk (delete k (Repo.nodes s)) else s).
Proof.
  unfold Repo.delete, Repo.contains, Repo.get, dict_pop.
  by destruct (Repo.nodes s !! k).
Qed.

(** [upsert] returns the node it has stored: the returned node has a
    truthy identifier and the coordinates and value submitted, it is what
    [get] returns for its identifier, [contains] holds for it, it is
    equal ([Node.__eq__]) to the node submitted, and the entries under
    all other identifiers are as before. *)
Theorem upsert_returns_persisted_node (s : Repo.t) (n : Node.t) :
  let p := fst (Repo.upsert s n) in
  let s' := snd (Repo.upsert s n) in
  truthy (Node.node_id p) = true /\
  Node.coordinates p = Node.coordinates n /\
  Node.value p = Node.value n /\
  Repo.get s' (Node.node_id p) = Some p /\
  Repo.contains s' (Node.node_id p) = true /\
  Node.__eq__ p (Node.IsNode n) = true /\
  forall k : pyobj, k <> Node.node_id p -> Repo.get s' k = Repo.get s k.
Proof.
  intros p s'. subst p s'.
  assert (Repo.get (snd (Repo.upsert s n)) (Node.node_id (fst (Repo.upsert s n)))
          = Some (fst (Repo.upsert s n))) as Hget.
  { unfold Repo.get. by rewrite upsert_nodes, lookup_insert_eq. }
  split; [apply upsert_id_truthy |]. split; [done |]. split; [done |].
  split; [done |]. split; [unfold Repo.contains; by rewrite Hget |].
  split; [by apply bool_decide_eq_true |].
  intros k Hk. unfold Repo.get. by rewrite upsert_nodes, lookup_insert_ne.
Qed.

(** [upsert] adds one to the length when nothing was stored under the
    identifier of the returned node, and keeps the length when it
    replaces an entry. *)
Theorem upsert_len (s : Repo.t) (n : Node.t) :
  Repo.__len__ (snd (Repo.upsert s n))
  = if Repo.contains s (Node.node_id (fst (Repo.upsert s n)))
    then Repo.__len__ s
    else (Repo.__len__ s + 1)%Z.
Proof.
  unfold Repo.__len__, Repo.contains, Repo.get.
  rewrite upsert_nodes, map_size_insert.
  destruct (Repo.nodes s !! Node.node_id (fst (Repo.upsert s n))); cbn; lia.
Qed.

(** [delete] never raises; when it returns true the length drops by
    one; and a second [delete] of the same identifier returns false and
    changes nothing. *)
Theorem delete_then_delete (s : Repo.t) (k : pyobj) :
  exists (b : bool) (s' : Repo.t),
    Repo.delete s k = Ok (b, s') /\
    b = Repo.contains s k /\
    Repo.__len__ s' = (if b then Repo.__len__ s - 1 else Repo.__len__ s)%Z /\
    Repo.delete s' k = Ok (false, s').
Proof.
  eexists _, _. split; [apply delete_Ok |]. split; [done |].
  unfold Repo.contains, Repo.get.
  destruct (Repo.nodes s !! k) eqn:Hk.
  - split.
    + unfold Repo.__len__. cbn. rewrite map_size_delete, Hk.
      assert (size (Repo.nodes s) <> 0%nat) as Hne.
      { intros Hz%map_size_empty_inv. by rewrite Hz, lookup_empty in Hk. }
      cbn. lia.
    + rewrite delete_Ok. unfold Repo.contains, Repo.get. cbn.
      by rewrite lookup_delete_eq.
  - split; [done |]. rewrite delete_Ok. unfold Repo.contains, Repo.get.
    by rewrite Hk.
Qed.

(** Deleting the node just inserted under a new identifier gives back
    the state before the [upsert]. *)
Theorem delete_undoes_upsert (s : Repo.t) (n : Node.t) :
  Repo.contains s (Node.node_id (fst (Repo.upsert s n))) = false ->
  Repo.delete (snd (Repo.upsert s n)) (Node.node_id (fst (Repo.upsert s n)))
  = Ok (true, s).
Proof.
  intros Hnew. rewrite delete_Ok.
  unfold Repo.contains, Repo.get in *.
  rewrite upsert_nodes, lookup_insert_eq, delete_insert_eq.
  destruct (Repo.nodes s !! Node.node_id (fst (Repo.upsert s n))) eqn:Hk;
    [done |].
  rewrite delete_id by done. by destruct s.
Qed.

Lemma delete_undoes_upsert_witness :
  Repo.contains one_node (Node.node_id (fst (Repo.upsert one_node you))) = false /\
  Repo.delete (snd (Repo.upsert one_node you))
    (Node.node_id (fst (Repo.upsert one_node you)))
  = Ok (true, one_node).
Proof.
  split; [vm_compute; reflexivity |].
  apply (delete_undoes_upsert one_node you). vm_compute. reflexivity.
Defined.

(** ** InMemoryGeospatialRepository: what every reachable state keeps *)

Lemma reachable_keys (s : Repo.t) :
  reachable s ->
  forall (k : pyobj) (n : Node.t),
    Repo.nodes s !! k = Some n -> truthy k = true /\ Node.node_id n = k.
Proof.
  induction 1 as [| s node Hs IH | s s' id b Hs IH Hdel]; intros k n Hk.
  - cbn in Hk. by rewrite lookup_empty in Hk.
  - rewrite upsert_nodes in Hk.
    destruct (decide (Node.node_id (fst (Repo.upsert s node)) = k)) as [<- | Hne].
    + rewrite lookup_insert_eq in Hk. injection Hk as <-.
      split; [apply upsert_id_truthy | done].
    + rewrite lookup_insert_ne in Hk by done. by apply IH.
  - rewrite delete_Ok in Hdel. injection Hdel as _ <-.
    destruct (Repo.contains s id); [| by apply IH].
    cbn in Hk. apply lookup_delete_Some in Hk as [_ Hk]. by apply IH.
Qed.

(** In every state reached from a new repository by [upsert] and
    [delete] calls, each stored node sits under its own identifier, and
    that identifier is truthy. *)
Theorem reachable_nodes_keyed_by_own_id (s : Repo.t) :
  reachable s ->
  forall (k : pyobj) (n : Node.t),
    Repo.get s k = Some n -> truthy k = true /\ Node.node_id n = k.
Proof. apply reachable_keys. Qed.

Lemma reachable_nodes_keyed_by_own_id_witness :
  reachable two_nodes /\
  forall (k : pyobj) (n : Node.t),
    Repo.get two_nodes k = Some n -> truthy k = true /\ Node.node_id n = k.
Proof.
  assert (reachable two_nodes) as H.
  { apply reachable_upsert, reachable_upsert, reachable_init. }
  split; [exact H |].
  exact (reachable_nodes_keyed_by_own_id two_nodes H).
Defined.

(** In every reachable state nothing is stored under a falsy identifier
    ([None], 0, the empty string): [get] finds nothing, [contains] is
    false and [delete] returns false, raising nothing and changing
    nothing. *)
Theorem reachable_falsy_identifier_absent (s : Repo.t) (k : pyobj) :
  reachable s ->
  truthy k = false ->
  Repo.get s k = None /\
  Repo.contains s k = false /\
  Repo.delete s k = Ok (false, s).
Proof.
  intros Hs Hk.
  assert (Repo.get s k = None) as Hget.
  { unfold Repo.get. destruct (Repo.nodes s !! k) as [n |] eqn:Hn; [| done].
    apply (reachable_keys s Hs) in Hn as [Ht _]. congruence. }
  assert (Repo.contains s k = false) as Hc
    by (unfold Repo.contains; by rewrite Hget).
  split; [done |]. split; [done |]. by rewrite delete_Ok, Hc.
Qed.

Lemma reachable_falsy_identifier_absent_witness :
  reachable two_nodes /\
  truthy PyNone = false /\
  Repo.get two_nodes PyNone = None /\
  Repo.contains two_nodes PyNone = false /\
  Repo.delete two_nodes PyNone = Ok (false, two_nodes).
Proof.
  assert (reachable two_nodes) as H.
  { apply reachable_upsert, reachable_upsert, reachable_init. }
  split; [exact H |]. split; [reflexivity |].
  exact (reachable_falsy_identifier_absent two_nodes PyNone H eq_refl).
Defined.

(** ** InMemoryGeospatialRepository: identifiers minted in a row *)

Lemma dense_init : dense Repo.__init__.
Proof.
  intros k. unfold Repo.__len__. cbn. rewrite lookup_empty, map_size_empty.
  split; [by intros [? ?] | intros (z & _ & Hz); lia].
Qed.

Lemma dense_minted_absent (s : Repo.t) :
  dense s -> Repo.nodes s !! PyInt (Repo.__len__ s + 1) = None.
Proof.
  intros Hd. apply eq_None_not_Some. intros (z & [= <-] & Hz)%Hd. lia.
Qed.

Lemma dense_upsert (s : Repo.t) (n : Node.t) :
  dense s -> truthy (Node.node_id n) = false ->
  dense (snd (Repo.upsert s n)) /\
  Repo.__len__ (snd (Repo.upsert s n)) = (Repo.__len__ s + 1)%Z.
Proof.
  intros Hd Hn. pose proof (dense_minted_absent s Hd) as Habs.
  rewrite upsert_falsy by done. cbn [snd].
  assert (Repo.__len__
            (Repo.mk (<[PyInt (Repo.__len__ s + 1) :=
                        Node.mk (PyInt (Repo.__len__ s + 1))
                          (Node.coordinates n) (Node.value n)]>
                      (Repo.nodes s)))
          = (Repo.__len__ s + 1)%Z) as Hlen.
  { unfold Repo.__len__ in *. cbn. rewrite map_size_insert_None by done. lia. }
  split; [| done]. intros k. rewrite Hlen. cbn [Repo.nodes].
  destruct (decide (PyInt (Repo.__len__ s + 1) = k)) as [<- | Hne].
  - rewrite lookup_insert_eq. split; [| by eauto].
    intros _. exists (Repo.__len__ s + 1)%Z. pose proof (len_nonneg s).
    split; [done | lia].
  - rewrite lookup_insert_ne by done. rewrite (Hd k). split.
    + intros (z & -> & Hz). exists z. split; [done | lia].
    + intros (z & -> & Hz). exists z. split; [done |].
      assert (z <> Repo.__len__ s + 1)%Z by congruence. lia.
Qed.

Lemma upsert_all_snoc (s : Repo.t) (ns : list Node.t) (n : Node.t) :
  upsert_all s (ns ++ [n]) = snd (Repo.upsert (upsert_all s ns) n).
Proof. unfold upsert_all. by rewrite fold_left_app. Qed.

Lemma upsert_all_dense (ns : list Node.t) :
  Forall (fun n => truthy (Node.node_id n) = false) ns ->
  dense (upsert_all Repo.__init__ ns) /\
  Repo.__len__ (upsert_all Repo.__init__ ns) = Z.of_nat (length ns) /\
  forall (i : nat) (n : Node.t),
    ns !! i = Some n ->
    Repo.nodes (upsert_all Repo.__init__ ns) !! PyInt (Z.of_nat i + 1)
    = Some (Node.mk (PyInt (Z.of_nat i + 1))
              (Node.coordinates n) (Node.value n)).
Proof.
  induction ns as [| x ns IH] using rev_ind; intros Hall.
  - split; [apply dense_init |]. split; [done |]. by intros i n ?.
  - apply Forall_app in Hall as [Hns Hx].
    apply Forall_inv in Hx.
    destruct (IH Hns) as (Hd & Hlen & Hget).
    destruct (dense_upsert _ x Hd Hx) as [Hd' Hlen'].
    rewrite upsert_all_snoc. split; [done |].
    split; [rewrite Hlen', Hlen, length_app; cbn; lia |].
    intros i n [[Hi Hn] | [-> <-]]%lookup_snoc_Some.
    + rewrite upsert_falsy by done. cbn [snd Repo.nodes].
      rewrite lookup_insert_ne; [by apply Hget |].
      rewrite Hlen. intros [= Hz]. lia.
    + rewrite upsert_falsy by done. cbn [snd Repo.nodes].
      rewrite Hlen. by rewrite lookup_insert_eq.
Qed.

(** On a new repository, [upsert] of N nodes without identifier, one
    after the other and with no [delete] in between, mints 1, 2, ..., N:
    the length is N and the i-th node is stored under the integer i, so
    the minted identifiers are pairwise distinct. *)
Theorem upsert_all_mints_1_to_N (ns : list Node.t) :
  Forall (fun n => truthy (Node.node_id n) = false) ns ->
  Repo.__len__ (upsert_all Repo.__init__ ns) = Z.of_nat (length ns) /\
  forall (i : nat) (n : Node.t),
    ns !! i = Some n ->
    Repo.get (upsert_all Repo.__init__ ns) (PyInt (Z.of_nat i + 1))
    = Some (Node.mk (PyInt (Z.of_nat i + 1))
              (Node.coordinates n) (Node.value n)).
Proof. intros H. by destruct (upsert_all_dense ns H) as (_ & ? & ?). Qed.

Lemma upsert_all_mints_1_to_N_witness :
  Forall (fun n => truthy (Node.node_id n) = false) [me; you; him] /\
  Repo.__len__ (upsert_all Repo.__init__ [me; you; him])
  = Z.of_nat (length [me; you; him]) /\
  forall (i : nat) (n : Node.t),
    [me; you; him] !! i = Some n ->
    Repo.get (upsert_all Repo.__init__ [me; you; him]) (PyInt (Z.of_nat i + 1))
    = Some (Node.mk (PyInt (Z.of_nat i + 1))
              (Node.coordinates n) (Node.value n)).
Proof.
  assert (Forall (fun n => truthy (Node.node_id n) = false) [me; you; him])
    as H by (repeat constructor).
  split; [exact H |].
  exact (upsert_all_mints_1_to_N [me; you; him] H).
Defined.

(** ** InMemoryGeospatialRepository.search: radius, size, composition *)

Lemma scan_radius_mono
  (items : list (pyobj * Node.t)) (c : R * R) (r1 r2 : Radius.t) :
  Radius.to_meters r1 <= Radius.to_meters r2 ->
  match Repo.scan items c r1, Repo.scan items c r2 with
  | Ok l1, Ok l2 => l1 `sublist_of` l2
  | Raise e1, Raise e2 => e1 = e2
  | _, _ => False
  end.
Proof.
  intros Hr. induction items as [| [k node] rest IH]; [by constructor |].
  cbn [Repo.scan].
  destruct (haversine c (Node.coordinates node) (PyUnit METERS))
    as [d0 | e0]; [| done].
  rewrite !bind_Ok.
  destruct (Repo.scan rest c r1) as [l1 | e1],
           (Repo.scan rest c r2) as [l2 | e2]; try done.
  rewrite !bind_Ok.
  destruct (float_le d0 (Radius.to_meters r1)) eqn:Hle1;
    destruct (float_le d0 (Radius.to_meters r2)) eqn:Hle2.
  - by apply sublist_skip.
  - apply float_le_true in Hle1. apply float_le_false in Hle2. lra.
  - by apply sublist_cons.
  - done.
Qed.

(** Growing the radius only adds results: for radii r1 <= r2 the two
    searches either both return, the result for r1 a subsequence of the
    result for r2, or both raise the same exception. *)
Theorem search_radius_monotone
  (s : Repo.t) (center : R * R) (r1 r2 : Radius.t) :
  Radius.to_meters r1 <= Radius.to_meters r2 ->
  match Repo.search s center r1, Repo.search s center r2 with
  | Ok l1, Ok l2 => l1 `sublist_of` l2 /\ forall n : Node.t, n ∈ l1 -> n ∈ l2
  | Raise e1, Raise e2 => e1 = e2
  | _, _ => False
  end.
Proof.
  intros Hr. unfold Repo.search.
  pose proof (scan_radius_mono (map_to_list (Repo.nodes s)) center r1 r2 Hr)
    as H.
  destruct (Repo.scan (map_to_list (Repo.nodes s)) center r1) as [l1 | e1],
           (Repo.scan (map_to_list (Repo.nodes s)) center r2) as [l2 | e2];
    try done.
  split; [done |]. intros n Hn. by eapply elem_of_sublist.
Qed.

Lemma search_radius_monotone_witness :
  Radius.to_meters (Radius.mk 500) <= Radius.to_meters (Radius.mk 5000) /\
  match Repo.search two_nodes origin (Radius.mk 500),
        Repo.search two_nodes origin (Radius.mk 5000) with
  | Ok l1, Ok l2 => l1 `sublist_of` l2 /\ forall n : Node.t, n ∈ l1 -> n ∈ l2
  | Raise e1, Raise e2 => e1 = e2
  | _, _ => False
  end.
Proof.
  assert (Radius.to_meters (Radius.mk 500) <= Radius.to_meters (Radius.mk 5000))
    as H by (cbn; lra).
  split; [exact H |].
  exact (search_radius_monotone two_nodes origin (Radius.mk 500)
           (Radius.mk 5000) H).
Defined.

(** A [search] that returns, returns at most as many nodes as the
    repository holds; on a new repository it returns the empty list, for
    every center and radius. *)
Theorem search_at_most_len (s : Repo.t) (center : R * R) (radius : Radius.t) :
  match Repo.search s center radius with
  | Ok l => (Z.of_nat (length l) <= Repo.__len__ s)%Z
  | Raise e =>
      exists (k : pyobj) (n : Node.t),
        Repo.get s k = Some n /\
        haversine center (Node.coordinates n) (PyUnit METERS) = Raise e
  end /\
  Repo.search Repo.__init__ center radius = Ok [].
Proof.
  split.
  - destruct (search_cases s center radius)
      as [(l & -> & _ & Hsub & _) | (e & k & n & -> & Hk & He)];
      [| by exists k, n].
    apply sublist_length in Hsub.
    rewrite length_fmap, length_map_to_list in Hsub.
    unfold Repo.__len__. lia.
  - unfold Repo.search. cbn. by rewrite map_to_list_empty.
Qed.

(** With a radius of at least 20015087 meters (half the Earth's
    circumference, rounded up) a [search] that returns, returns every
    stored node, whatever the center. *)
Theorem search_half_circumference_returns_all
  (s : Repo.t) (center : R * R) (radius : Radius.t) :
  20015087 <= Radius.to_meters radius ->
  match Repo.search s center radius with
  | Ok l =>
      forall (k : pyobj) (n : Node.t), Repo.get s k = Some n -> n ∈ l
  | Raise e =>
      exists (k : pyobj) (n : Node.t),
        Repo.get s k = Some n /\
        haversine center (Node.coordinates n) (PyUnit METERS) = Raise e
  end.
Proof.
  intros Hr.
  destruct (search_cases s center radius)
    as [(l & -> & Hall & _ & Hin) | (e & k & n & -> & Hk & He)];
    [| by exists k, n].
  intros k n Hk. apply Hin. split; [by exists k |].
  destruct (Hall k n Hk) as [d Hd]. exists d. split; [done |].
  apply haversine_upper in Hd as (u & [= <-] & Hd).
  cbn [earth_radius_in] in Hd. lra.
Qed.

Lemma search_half_circumference_returns_all_witness :
  20015087 <= Radius.to_meters (Radius.mk 30000000) /\
  match Repo.search two_nodes origin (Radius.mk 30000000) with
  | Ok l =>
      forall (k : pyobj) (n : Node.t), Repo.get two_nodes k = Some n -> n ∈ l
  | Raise e =>
      exists (k : pyobj) (n : Node.t),
        Repo.get two_nodes k = Some n /\
        haversine origin (Node.coordinates n) (PyUnit METERS) = Raise e
  end.
Proof.
  assert (20015087 <= Radius.to_meters (Radius.mk 30000000)) as H
    by (cbn; lra).
  split; [exact H |].
  exact (search_half_circumference_returns_all two_nodes origin
           (Radius.mk 30000000) H).
Defined.

(** After [upsert(node)], a [search] around the node's own coordinates
    with a radius that is not negative, when it returns, contains the
    persisted node. *)
Theorem search_finds_upserted_node
  (s : Repo.t) (n : Node.t) (radius : Radius.t) :
  0 <= Radius.to_meters radius ->
  match Repo.search (snd (Repo.upsert s n)) (Node.coordinates n) radius with
  | Ok l => fst (Repo.upsert s n) ∈ l
  | Raise e =>
      exists (k : pyobj) (m : Node.t),
        Repo.get (snd (Repo.upsert s n)) k = Some m /\
        haversine (Node.coordinates n) (Node.coordinates m) (PyUnit METERS)
        = Raise e
  end.
Proof.
  intros Hr.
  destruct (search_cases (snd (Repo.upsert s n)) (Node.coordinates n) radius)
    as [(l & -> & _ & _ & Hin) | (e & k & m & -> & Hk & He)];
    [| by exists k, m].
  apply Hin. split.
  - exists (Node.node_id (fst (Repo.upsert s n))).
    unfold Repo.get. by rewrite upsert_nodes, lookup_insert_eq.
  - exists 0. split; [apply haversine_same | done].
Qed.

Lemma search_finds_upserted_node_witness :
  0 <= Radius.to_meters (Radius.mk 500) /\
  match Repo.search (snd (Repo.upsert one_node you)) (Node.coordinates you)
          (Radius.mk 500) with
  | Ok l => fst (Repo.upsert one_node you) ∈ l
  | Raise e =>
      exists (k : pyobj) (m : Node.t),
        Repo.get (snd (Repo.upsert one_node you)) k = Some m /\
        haversine (Node.coordinates you) (Node.coordinates m) (PyUnit METERS)
        = Raise e
  end.
Proof.
  assert (0 <= Radius.to_meters (Radius.mk 500)) as H by (cbn; lra).
  split; [exact H |].
  exact (search_finds_upserted_node one_node you (Radius.mk 500) H).
Defined.

(** A [search] that returns before [delete(k)] also returns after it, and
    then gives the former results without the node that was stored under
    k: a node is found afterwards exactly when it was found before and is
    stored under another identifier. *)
Theorem search_after_delete
  (s : Repo.t) (k : pyobj) (center : R * R) (radius : Radius.t) :
  exists (b : bool) (s' : Repo.t),
    Repo.delete s k = Ok (b, s') /\
    match Repo.search s center radius with
    | Ok l =>
        exists l' : list Node.t,
          Repo.search s' center radius = Ok l' /\
          forall n : Node.t,
            n ∈ l' <->
            n ∈ l /\ exists j : pyobj, j <> k /\ Repo.get s j = Some n
    | Raise e =>
        exists (j : pyobj) (n : Node.t),
          Repo.get s j = Some n /\
          haversine center (Node.coordinates n) (PyUnit METERS) = Raise e
    end.
Proof.
  set (s' := if Repo.contains s k then Repo.mk (delete k (Repo.nodes s)) else s).
  exists (Repo.contains s k), s'. split; [apply delete_Ok |].
  assert (forall (j : pyobj) (n : Node.t),
            Repo.get s' j = Some n <-> j <> k /\ Repo.get s j = Some n) as Hst.
  { intros j n. subst s'. unfold Repo.contains, Repo.get.
    destruct (Repo.nodes s !! k) eqn:Hk; cbn.
    - rewrite lookup_delete_Some.
      split; intros [? ?]; split; (done || congruence).
    - split; [intros Hn; split; [congruence | done] | by intros [_ Hn]]. }
  destruct (search_cases s center radius)
    as [(l & -> & Hall & _ & Hin) | (e & j & n & -> & Hj & He)];
    [| by exists j, n].
  destruct (search_cases s' center radius)
    as [(l' & Hl' & _ & _ & Hin') | (e & j & n & _ & Hj & He)].
  - exists l'. split; [done |]. intros n. rewrite Hin, Hin'. split.
    + intros [[j [Hne Hj]%Hst] Hw].
      split; [split; [by exists j | done] | by exists j].
    + intros [[_ Hw] (j & Hne & Hj)]. split; [| done].
      exists j. by apply Hst.
  - apply Hst in Hj as [_ Hj]. destruct (Hall j n Hj) as [d Hd]. congruence.
Qed.

(** ** MongoNode and the stored document *)

(** The document written by [MongoGeospatialRepository.upsert] reads back
    as the node: [MongoNode] undoes the longitude-first order, so the
    coordinates and the value are those of the node, the two are equal
    under [Node.__eq__], and the identifier is the [str] of the
    document's [_id] (the same object when that is a string). *)
Theorem MongoNode_reads_upsert_document (id : pyobj) (n : Node.t) :
  exists m : Node.t,
    MongoNode.of_document (upsert_document id n) = Some m /\
    Node.coordinates m = Node.coordinates n /\
    Node.value m = Node.value n /\
    Node.__eq__ m (Node.IsNode n) = true /\
    Node.node_id m = PyStr (py_str id) /\
    forall s : string, id = PyStr s -> Node.node_id m = id.
Proof.
  eexists. split; [reflexivity |]. cbn.
  split; [by destruct (Node.coordinates n) |]. split; [done |].
  split; [by apply bool_decide_eq_true |]. split; [done |].
  by intros s ->.
Qed.

(** [MongoNode] needs a longitude and a latitude: with fewer than two
    coordinates the constructor fails (an [IndexError]); with two or more
    it takes the second as latitude and the first as longitude and
    ignores the rest. *)
Theorem MongoNode_needs_two_coordinates (id v : pyobj) (location : list R) :
  (MongoNode.__init__ id v location = None <-> (length location < 2)%nat) /\
  forall (longitude latitude : R) (rest : list R),
    MongoNode.__init__ id v (longitude :: latitude :: rest)
    = Some (Node.mk (PyStr (py_str id)) (latitude, longitude) v).
Proof.
  split; [| done].
  destruct location as [| lon [| lat rest]]; cbn; split; (done || lia).
Qed.
